(** * The custodial HTTP inbound transport

    A shallow embedding of
    [aries_cloudagent/transport/inbound/http_custodial.py]: the class
    [CustodialHttpTransport] with its [start], [stop],
    [inbound_message_handler] and [invite_message_handler].

    The handler is sequential code over mutable objects (the session, the
    injection contexts) that calls collaborators which may raise.  It is
    embedded in a state-and-exception monad over a store of contexts and
    sessions; the collaborators that live outside this file (aiohttp's
    request, the session class, the wallet handler) are the fields of an
    environment record. *)

From Stdlib Require Import ZArith String Ascii List Bool Lia DecimalString.
From Stdlib Require Import Sorted.
From stdpp Require Import base option list gmap strings.

Open Scope string_scope.
Open Scope list_scope.

(** ** Python values and exceptions *)

(** The two runtime types the handler distinguishes with
    [isinstance(_, bytes)]: [str] and [bytes]. *)
Inductive pyval : Type :=
| Str (s : string)
| Bytes (b : list Byte.byte).

(** Exception classes.  [MessageParseError] and [OSError] stand for the class
    and its subclasses (what an [except] clause of that class catches);
    [OtherError] is any exception outside the classes named here. *)
Inductive exn : Type :=
| MessageParseError
| TenantResolutionError
| IndexError
| OSError
| InboundTransportSetupError (msg : string)
| HTTPBadRequest
| OtherError (name : string).

(** What evaluating a Python expression gives: a value or a raised exception. *)
Inductive result (A : Type) : Type :=
| Return (a : A)
| Raise (e : exn).
Arguments Return {A} a.
Arguments Raise {A} e.

(** Python truthiness of a [str] or [bytes] value: the empty one is false. *)
Definition truthy_val (v : pyval) : bool :=
  match v with
  | Str s => negb (String.eqb s "")
  | Bytes b => negb (bool_decide (b = []))
  end.

(** [isinstance(v, bytes)] *)
Definition isinstance_bytes (v : pyval) : bool :=
  match v with
  | Bytes _ => true
  | Str _ => false
  end.

(** ** Strings: [str.lower] and [str.split(sep, 1)[0]] *)

(** Header values are ASCII; [lower] maps 'A'..'Z' to 'a'..'z'. *)
Definition lower_ascii (c : ascii) : ascii :=
  let n := N_of_ascii c in
  if ((65 <=? n)%N && (n <=? 90)%N)%bool then ascii_of_N (n + 32) else c.

Fixpoint lower (s : string) : string :=
  match s with
  | EmptyString => EmptyString
  | String c s' => String (lower_ascii c) (lower s')
  end.

(** [s.split(sep, 1)[0]] for a one-character separator: the text before the
    first separator, the whole of [s] when there is none. *)
Fixpoint split_first (sep : ascii) (s : string) : string :=
  match s with
  | EmptyString => EmptyString
  | String c s' =>
      if Ascii.eqb c sep then EmptyString else String c (split_first sep s')
  end.

(** [request.headers.get(key, dflt)]: the headers are a case-insensitive
    multi-dict, [get] gives the first value stored under the key. *)
Fixpoint headers_get (hs : list (string * string)) (key dflt : string) : string :=
  match hs with
  | [] => dflt
  | (k, v) :: hs' =>
      if String.eqb (lower k) (lower key) then v else headers_get hs' key dflt
  end.

(** The test of line 90:
    [ctype.split(";", 1)[0].lower() == "application/json"]. *)
Definition is_json (ctype : string) : bool :=
  String.eqb (lower (split_first ";" ctype)) "application/json".

(** The claim's wording of the same test, kept apart from the source's:
    the media type is the part before any [;], and it is compared with
    [application/json] letter by letter, ignoring case. *)
Definition media_type (ctype : string) : string :=
  match index 0 ";" ctype with
  | Some n => substring 0 n ctype
  | None => ctype
  end.

Definition same_letter (a b : ascii) : bool :=
  Ascii.eqb (lower_ascii a) (lower_ascii b).

Fixpoint caseless_eqb (s t : string) : bool :=
  match s, t with
  | EmptyString, EmptyString => true
  | String a s', String b t' => same_letter a b && caseless_eqb s' t'
  | _, _ => false
  end.

(** ** Responses *)

(** [web.Response(body=..., text=..., status=..., headers=...)]: [body=] is a
    [Bytes] payload, [text=] a [Str] one, and both are absent in
    [web.Response(status=200)]. *)
Record response : Type := Response {
  status : Z;
  payload : option pyval;
  resp_headers : list (string * string)
}.

(** The status aiohttp answers with when the handler raises: an
    [HTTPException] carries its own status. *)
Definition exn_status (e : exn) : option Z :=
  match e with
  | HTTPBadRequest => Some 400%Z
  | _ => None
  end.

(** ** Contexts, sessions and the store *)

(** An injection context: its settings and the wallet instance bound in it. *)
Record context : Type := Context {
  settings : gmap string (list string);
  instance : option string
}.

#[global] Instance context_inhabited : Inhabited context :=
  populate (Context ∅ None).

(** [context.settings.get_value(name)]: [None] when the setting is absent. *)
Definition get_value (c : context) (name : string) : option (list string) :=
  settings c !! name.

(** Contexts and sessions are objects: they live in a store and are named
    by their position in it. *)
Definition ref := nat.

Record session : Type := Session {
  s_context : ref;
  accept_undelivered : bool;
  can_respond : bool;
  client_info : string * string;
  response_buffer : option pyval;
  entered : bool;
  closed : bool
}.

#[global] Instance session_inhabited : Inhabited session :=
  populate (Session 0 false false ("", "") None false false).

Record message_receipt : Type := MessageReceipt {
  direct_response_requested : bool
}.

Record inbound_message : Type := InboundMessage {
  receipt : message_receipt
}.

(** The calls the handler makes on its collaborators, in the order made. *)
Inductive event : Type :=
| EvCreateSession (sid : ref)
| EvInject
| EvGetWalletByMsg (body : pyval)
| EvCopy (src dst : ref)
| EvSetInstance (wallet_id : string) (ctx : ref)
| EvEnter (sid : ref)
| EvReceive (body : pyval) (ctx : ref)
| EvWaitResponse
| EvClearResponse
| EvExit (sid : ref).

Record world : Type := World {
  heap : list context;
  sessions : list session;
  log : list event
}.

(** The context the transport was built with, [self.context]: the first
    object of the store. *)
Definition base_ref : ref := 0.

Definition init_world (base : context) : world :=
  World [base] [] [].

(** ** The monad: state passing with exceptions *)

(** A computation over a mutable state [St] that returns an [A] or raises. *)
Definition M (St A : Type) : Type := St -> result A * St.

Definition ret {St A} (a : A) : M St A := fun w => (Return a, w).

Definition raise {St A} (e : exn) : M St A := fun w => (Raise e, w).

Definition bind {St A B} (m : M St A) (k : A -> M St B) : M St B :=
  fun w =>
    match m w with
    | (Return a, w') => k a w'
    | (Raise e, w') => (Raise e, w')
    end.

Declare Scope py_scope.
Delimit Scope py_scope with py.
Notation "x <- c ;; k" := (bind c (fun x => k))
  (at level 100, c at next level, right associativity) : py_scope.
Notation "c ;; k" := (bind c (fun _ => k))
  (at level 100, right associativity) : py_scope.
Open Scope py_scope.

(** [await f(...)] on a collaborator whose outcome is [r]. *)
Definition await {St A} (r : result A) : M St A := fun w => (r, w).

Definition get {St} : M St St := fun w => (Return w, w).

Definition put {St} (w : St) : M St unit := fun _ => (Return tt, w).

(** [try: m  except MessageParseError: h] *)
Definition try_except_MessageParseError {St A} (m h : M St A) : M St A :=
  fun w =>
    match m w with
    | (Raise MessageParseError, w') => h w'
    | rw => rw
    end.

(** [try: m  except OSError: h] *)
Definition try_except_OSError {St A} (m h : M St A) : M St A :=
  fun w =>
    match m w with
    | (Raise OSError, w') => h w'
    | rw => rw
    end.

(** [try: m  finally: fin]: [fin] runs however [m] ends, and [m]'s outcome
    stands unless [fin] raises. *)
Definition finally {St A} (m : M St A) (fin : M St unit) : M St A :=
  fun w =>
    match m w with
    | (r, w') =>
        match fin w' with
        | (Return _, w'') => (r, w'')
        | (Raise e, w'') => (Raise e, w'')
        end
    end.

Definition emit (e : event) : M world unit :=
  fun w => (Return tt, World (heap w) (sessions w) (log w ++ [e])).

(** ** Objects in the store *)

Definition get_session (sid : ref) : M world session :=
  fun w => (Return (sessions w !!! sid), w).

Definition update_session (sid : ref) (f : session -> session) : M world unit :=
  fun w => (Return tt, World (heap w) (alter f sid (sessions w)) (log w)).

Definition get_context (c : ref) : M world context :=
  fun w => (Return (heap w !!! c), w).

Definition update_context (c : ref) (f : context -> context) : M world unit :=
  fun w => (Return tt, World (alter f c (heap w)) (sessions w) (log w)).

(** Allocation of a new context object; its reference is a new one. *)
Definition alloc_context (c : context) : M world ref :=
  fun w => (Return (length (heap w)), World (heap w ++ [c]) (sessions w) (log w)).

Definition alloc_session (s : session) : M world ref :=
  fun w => (Return (length (sessions w)), World (heap w) (sessions w ++ [s]) (log w)).

(** Field assignments on the session object. *)
Definition set_s_context (c : ref) (s : session) : session :=
  Session c (accept_undelivered s) (can_respond s) (client_info s)
          (response_buffer s) (entered s) (closed s).

Definition set_can_respond (b : bool) (s : session) : session :=
  Session (s_context s) (accept_undelivered s) b (client_info s)
          (response_buffer s) (entered s) (closed s).

Definition set_response_buffer (o : option pyval) (s : session) : session :=
  Session (s_context s) (accept_undelivered s) (can_respond s) (client_info s)
          o (entered s) (closed s).

Definition set_entered (s : session) : session :=
  Session (s_context s) (accept_undelivered s) (can_respond s) (client_info s)
          (response_buffer s) true (closed s).

Definition set_closed (s : session) : session :=
  Session (s_context s) (accept_undelivered s) (can_respond s) (client_info s)
          (response_buffer s) (entered s) true.

Definition set_instance_field (wallet_id : string) (c : context) : context :=
  Context (settings c) (Some wallet_id).

(** ** The collaborators of one exchange *)

(** What the request holds and what each collaborator answers, for one call
    of the handler.  A collaborator that can fail answers with a [result]. *)
Record Env : Type := {
  (** [request.headers], [request.host], [request.remote] *)
  req_headers : list (string * string);
  req_host : string;
  req_remote : string;
  (** [await request.text()] and [await request.read()] *)
  req_text : result string;
  req_read : result (list Byte.byte);
  (** whether [self.create_session(...)] succeeds *)
  create_session_outcome : result unit;
  (** [await session.context.inject(WalletHandler)] *)
  inject_outcome : result unit;
  (** [await wallet_handler.get_wallet_by_msg(body)] *)
  get_wallet_by_msg : pyval -> result (list string);
  (** whether [await wallet_handler.set_instance(wallet_id, context)]
      succeeds for the context given, as it is before the call *)
  set_instance_outcome : string -> context -> result unit;
  (** [await session.receive(body)], unpacking with the session's context *)
  receive_outcome : pyval -> context -> result inbound_message;
  (** [await session.wait_response()]: the payload the dispatcher put in
      the session's buffer before the wait ended, if any *)
  wait_response_outcome : result (option pyval)
}.

Section Handler.

Variable E : Env.

(** Modelled from the spec: [create_session] of the transport manager, which
    is not in this file; "constructs an Exchange bound to the default process
    context", with the two flags and the peer metadata the caller gives. *)
Definition create_session (accept_undelivered0 can_respond0 : bool)
    (client_info0 : string * string) : M world ref :=
  await (create_session_outcome E) ;;
  sid <- alloc_session
    (Session base_ref accept_undelivered0 can_respond0 client_info0
             None false false) ;;
  emit (EvCreateSession sid) ;;
  ret sid.

(** [await session.context.inject(WalletHandler)]; the handler object has
    no state of its own here, its two methods follow. *)
Definition inject_WalletHandler : M world unit :=
  emit EvInject ;;
  await (inject_outcome E).

Definition wallet_handler_get_wallet_by_msg (body : pyval) : M world (list string) :=
  emit (EvGetWalletByMsg body) ;;
  await (get_wallet_by_msg E body).

(** Modelled from the spec: [InjectionContext.copy], not in this file; the
    Context Switcher "produces a tenant-scoped copy of the context" and "must
    not mutate the base context": a new object with the same contents. *)
Definition context_copy (c : ref) : M world ref :=
  v <- get_context c ;;
  c' <- alloc_context v ;;
  emit (EvCopy c c') ;;
  ret c'.

(** Modelled from the spec: [WalletHandler.set_instance], not in this file;
    it "may open a tenant's persistent store as a side effect of context
    substitution" and fails with [TenantResolutionError] or another
    exception when it cannot; on success the instance is bound in the
    context it was given. *)
Definition wallet_handler_set_instance (wallet_id : string) (c : ref) : M world unit :=
  emit (EvSetInstance wallet_id c) ;;
  v <- get_context c ;;
  await (set_instance_outcome E wallet_id v) ;;
  update_context c (set_instance_field wallet_id).

(** Modelled from the spec: the session's [__aenter__] and [__aexit__], not
    in this file; the exit is [close()], which "releases all resources
    associated with the Exchange" and lets an exception of the block pass. *)
Definition session_aenter (sid : ref) : M world unit :=
  emit (EvEnter sid) ;;
  update_session sid set_entered.

Definition session_aexit (sid : ref) : M world unit :=
  emit (EvExit sid) ;;
  update_session sid set_closed.

(** [async with session: block] *)
Definition async_with {A} (sid : ref) (block : M world A) : M world A :=
  session_aenter sid ;;
  finally block (session_aexit sid).

(** [await session.receive(body)] *)
Definition session_receive (sid : ref) (body : pyval) : M world inbound_message :=
  s <- get_session sid ;;
  emit (EvReceive body (s_context s)) ;;
  v <- get_context (s_context s) ;;
  await (receive_outcome E body v).

(** Modelled from the spec: [session.wait_response], not in this file; it
    returns the pending response, "an optional payload produced by the
    dispatcher", which stays in the session until it is cleared. *)
Definition session_wait_response (sid : ref) : M world (option pyval) :=
  emit EvWaitResponse ;;
  r <- await (wait_response_outcome E) ;;
  update_session sid (set_response_buffer r) ;;
  ret r.

(** Modelled from the spec: [session.clear_response], not in this file: it
    "clears any pending response". *)
Definition session_clear_response (sid : ref) : M world unit :=
  emit EvClearResponse ;;
  update_session sid (set_response_buffer None).

(** [x[i]] on a Python list, for an index that is not negative. *)
Definition list_index {St A} (l : list A) (i : nat) : M St A :=
  match l !! i with
  | Some x => ret x
  | None => raise IndexError
  end.

(** [ext_plugins and 'aries_cloudagent.wallet_handler' in ext_plugins],
    line 106: [None] and the empty list are false. *)
Definition wallet_handler_declared (ext_plugins : option (list string)) : bool :=
  match ext_plugins with
  | None => false
  | Some l =>
      negb (bool_decide (l = []))
      && bool_decide ("aries_cloudagent.wallet_handler" ∈ l)
  end.

(** Lines 89 to 93: the body, as text or as bytes. *)
Definition read_body : M world pyval :=
  let ctype := headers_get (req_headers E) "content-type" "" in
  if is_json ctype
  then (s <- await (req_text E) ;; ret (Str s))
  else (b <- await (req_read E) ;; ret (Bytes b)).

(** Lines 104 to 113: "Adapt session context for correct wallet". *)
Definition adapt_session_context (sid : ref) (body : pyval) : M world unit :=
  s <- get_session sid ;;
  c <- get_context (s_context s) ;;
  let ext_plugins := get_value c "external_plugins" in
  if wallet_handler_declared ext_plugins then
    inject_WalletHandler ;;
    wallet_ids <- wallet_handler_get_wallet_by_msg body ;;
    s <- get_session sid ;;
    c' <- context_copy (s_context s) ;;
    update_session sid (set_s_context c') ;;
    wallet_id <- list_index wallet_ids 0 ;;
    s <- get_session sid ;;
    wallet_handler_set_instance wallet_id (s_context s)
  else ret tt.

(** Lines 117 to 141, the block under [async with session]: [Some r] is
    [return r] inside the block, [None] is falling out of its end. *)
Definition session_block (sid : ref) (body : pyval) : M world (option response) :=
  inbound <- try_except_MessageParseError
               (session_receive sid body)
               (raise HTTPBadRequest) ;;
  if direct_response_requested (receipt inbound) then
    response <- session_wait_response sid ;;
    update_session sid (set_can_respond false) ;;
    session_clear_response sid ;;
    match response with (* [if response:], [None] being false *)
    | Some v =>
        if truthy_val v then
          if isinstance_bytes v
          then ret (Some (Response 200 (Some v)
                            [("Content-Type", "application/ssi-agent-wire")]))
          else ret (Some (Response 200 (Some v)
                            [("Content-Type", "application/json")]))
        else ret None
    | None => ret None
    end
  else ret None.

(** [inbound_message_handler], lines 78 to 143. *)
Definition inbound_message_handler : M world response :=
  body <- read_body ;;
  let client_info0 := (req_host E, req_remote E) in
  sid <- create_session true true client_info0 ;;
  adapt_session_context sid body ;;
  r <- async_with sid (session_block sid body) ;;
  match r with
  | Some resp => ret resp
  | None => ret (Response 200 None [])
  end.

End Handler.

(** ** The transport: [make_application], [start], [stop] *)

Inductive http_method : Type := GET | POST.

Inductive handler_name : Type :=
| invite_message_handler_route
| inbound_message_handler_route.

(** The [web.Application] built from [app_args], with the routes added to it. *)
Record application : Type := Application {
  client_max_size : option Z;
  routes : list (http_method * string * handler_name)
}.

(** [web.TCPSite(runner, host=..., port=...)] and whether it listens. *)
Record tcp_site : Type := TCPSite {
  site_app : application;
  site_host : string;
  site_port : Z;
  site_started : bool
}.

(** The fields of [CustodialHttpTransport] the methods use. *)
Record transport : Type := Transport {
  host : string;
  port : Z;
  max_message_size : Z;
  site : option tcp_site
}.

Definition set_site (o : option tcp_site) (self : transport) : transport :=
  Transport (host self) (port self) (max_message_size self) o.

(** [__init__]: [self.site] starts as [None]. *)
Definition init_transport (host0 : string) (port0 max_message_size0 : Z) : transport :=
  Transport host0 port0 max_message_size0 None.

(** Lines 38 to 47.  [if self.max_message_size:] is false at 0. *)
Definition make_application (self : transport) : application :=
  let app_args :=
    if negb (max_message_size self =? 0)%Z
    then Some (max_message_size self)
    else None in
  Application app_args
    ([(GET, "/", invite_message_handler_route)]
     ++ [(POST, "/", inbound_message_handler_route)]).

(** What the process environment and aiohttp answer during [start]. *)
Record StartEnv : Type := {
  (** [os.getenv("ELASTIC_APM_ENABLED")] *)
  ELASTIC_APM_ENABLED : option string;
  (** [ElasticAPM(app)] *)
  elastic_apm_outcome : result unit;
  (** [await runner.setup()] *)
  runner_setup_outcome : result unit;
  (** [await self.site.start()] *)
  site_start_outcome : result unit
}.

(** [str(n)] for a Python [int]. *)
Definition str_of_int (n : Z) : string := NilZero.string_of_int (Z.to_int n).

Definition newline : string := String (ascii_of_N 10) EmptyString.

(** The text of lines 68 and 69. *)
Definition setup_error_message (self : transport) : string :=
  ("Unable to start webserver with host "
   ++ ("'" ++ host self ++ "' and port '" ++ str_of_int (port self) ++ "'"
       ++ newline))%string.

(** [ELASTIC_APM_ENABLED and ELASTIC_APM_ENABLED == "true"] *)
Definition elastic_apm_wanted (v : option string) : bool :=
  match v with
  | None => false
  | Some s => negb (String.eqb s "") && String.eqb s "true"
  end.

Section Start.

Variable SE : StartEnv.

(** [await self.site.start()]: the site listens when the call returns. *)
Definition site_start : M transport unit :=
  await (site_start_outcome SE) ;;
  self <- get ;;
  match site self with
  | Some s =>
      put (set_site (Some (TCPSite (site_app s) (site_host s) (site_port s) true))
                    self)
  | None => ret tt
  end.

(** [start], lines 49 to 70. *)
Definition start : M transport unit :=
  self <- get ;;
  let app := make_application self in
  (if elastic_apm_wanted (ELASTIC_APM_ENABLED SE)
   then await (elastic_apm_outcome SE)
   else ret tt) ;;
  await (runner_setup_outcome SE) ;;
  put (set_site (Some (TCPSite app (host self) (port self) false)) self) ;;
  try_except_OSError
    site_start
    (self <- get ;; raise (InboundTransportSetupError (setup_error_message self))).

End Start.

(** [stop], lines 72 to 76; [site_stop_outcome] is what
    [await self.site.stop()] answers.  When it raises, the assignment of
    line 76 is not reached and [self.site] stays set. *)
Definition stop (site_stop_outcome : result unit) : M transport unit :=
  self <- get ;;
  match site self with
  | Some _ =>
      await site_stop_outcome ;;
      put (set_site None self)
  | None => ret tt
  end.

(** Whether the transport listens: it has a site and the site was started. *)
Definition listening (self : transport) : bool :=
  match site self with
  | Some s => site_started s
  | None => false
  end.

(** [invite_message_handler], lines 145 to 162; [query] is
    [request.query.get("c_i")]. *)
Definition invite_message_handler (query : option string) : response :=
  match query with
  | Some v =>
      if negb (String.eqb v "")
      then Response 200
             (Some (Str ("You have received a connection invitation. To accept the "
                         ++ "invitation, paste it into your agent application.")%string))
             []
      else Response 200 None []
  | None => Response 200 None []
  end.

(** ** Observations on a run of the handler *)

(** The reference [create_session] gives to the session of the exchange
    that starts in world [w]. *)
Definition new_sid (w : world) : ref := length (sessions w).

(** The session of that exchange, as it is in a later world [w']. *)
Definition exchange_session (w w' : world) : session :=
  sessions w' !!! new_sid w.

(** The context bound to that session in [w']. *)
Definition bound_context (w w' : world) : context :=
  heap w' !!! s_context (exchange_session w w').

(** The two parts of a run: what the caller gets and the state left. *)
Definition outcome {St A} (rw : result A * St) : result A := fst rw.
Definition final {St A} (rw : result A * St) : St := snd rw.

(** Lines 89 to 113 on their own: what the handler does before it enters
    the [async with] block, with the session and the body it goes on with. *)
Definition before_block (E : Env) : M world (ref * pyval) :=
  body <- read_body E ;;
  sid <- create_session E true true (req_host E, req_remote E) ;;
  adapt_session_context E sid body ;;
  ret (sid, body).

(** The events the exchange that started in [w] has added by [w']. *)
Definition new_events (w w' : world) : list event :=
  drop (length (log w)) (log w').

(** The body [read_body] gives, without the world. *)
Definition request_body (E : Env) : result pyval :=
  if is_json (headers_get (req_headers E) "content-type" "")
  then match req_text E with Return s => Return (Str s) | Raise e => Raise e end
  else match req_read E with Return b => Return (Bytes b) | Raise e => Raise e end.

(** The calls made for tenant resolution (lines 108 to 113). *)
Definition is_tenant_step (ev : event) : bool :=
  match ev with
  | EvInject | EvGetWalletByMsg _ | EvCopy _ _ | EvSetInstance _ _ => true
  | _ => false
  end.

(** No collaborator of the exchange raises [e]. *)
Definition never_raised (E : Env) (e : exn) : Prop :=
  req_text E ≠ Raise e
  ∧ req_read E ≠ Raise e
  ∧ create_session_outcome E ≠ Raise e
  ∧ inject_outcome E ≠ Raise e
  ∧ (∀ b, get_wallet_by_msg E b ≠ Raise e)
  ∧ (∀ wid c, set_instance_outcome E wid c ≠ Raise e)
  ∧ (∀ b c, receive_outcome E b c ≠ Raise e)
  ∧ wait_response_outcome E ≠ Raise e.

(** No step of [start] raises [e] by itself. *)
Definition start_never_raised (SE : StartEnv) (e : exn) : Prop :=
  elastic_apm_outcome SE ≠ Raise e
  ∧ runner_setup_outcome SE ≠ Raise e
  ∧ site_start_outcome SE ≠ Raise e.

(** No step of [start] before [self.site.start()] raises. *)
Definition setup_completes (SE : StartEnv) : Prop :=
  (elastic_apm_wanted (ELASTIC_APM_ENABLED SE) = true →
   elastic_apm_outcome SE = Return tt)
  ∧ runner_setup_outcome SE = Return tt.

(** ** Sample exchanges *)

(** A base context with tenant routing on, and one with it off. *)
Definition routed_base : context :=
  Context {[ "external_plugins" := ["aries_cloudagent.wallet_handler"] ]} None.

Definition plain_base : context :=
  Context {[ "external_plugins" := ["aries_cloudagent.holder"] ]} None.

(** A JSON request with direct response asked for, to which the dispatcher
    answers [ack] in time; the resolver knows one wallet for it. *)
Definition sample_env : Env := {|
  req_headers := [("Content-Type", "Application/JSON; charset=utf-8")];
  req_host := "agent.example";
  req_remote := "10.0.0.7";
  req_text := Return "{}";
  req_read := Return [Byte.x7b; Byte.x7d];
  create_session_outcome := Return tt;
  inject_outcome := Return tt;
  get_wallet_by_msg := fun _ => Return ["wallet-1"; "wallet-2"];
  set_instance_outcome := fun _ _ => Return tt;
  receive_outcome := fun _ _ => Return (InboundMessage (MessageReceipt true));
  wait_response_outcome := Return (Some (Str "ack"))
|}.

Definition with_resolver (r : result (list string)) (E : Env) : Env := {|
  req_headers := req_headers E;
  req_host := req_host E;
  req_remote := req_remote E;
  req_text := req_text E;
  req_read := req_read E;
  create_session_outcome := create_session_outcome E;
  inject_outcome := inject_outcome E;
  get_wallet_by_msg := fun _ => r;
  set_instance_outcome := set_instance_outcome E;
  receive_outcome := receive_outcome E;
  wait_response_outcome := wait_response_outcome E
|}.

Definition with_receive (r : result inbound_message) (E : Env) : Env := {|
  req_headers := req_headers E;
  req_host := req_host E;
  req_remote := req_remote E;
  req_text := req_text E;
  req_read := req_read E;
  create_session_outcome := create_session_outcome E;
  inject_outcome := inject_outcome E;
  get_wallet_by_msg := get_wallet_by_msg E;
  set_instance_outcome := set_instance_outcome E;
  receive_outcome := fun _ _ => r;
  wait_response_outcome := wait_response_outcome E
|}.

Definition with_wait (r : result (option pyval)) (E : Env) : Env := {|
  req_headers := req_headers E;
  req_host := req_host E;
  req_remote := req_remote E;
  req_text := req_text E;
  req_read := req_read E;
  create_session_outcome := create_session_outcome E;
  inject_outcome := inject_outcome E;
  get_wallet_by_msg := get_wallet_by_msg E;
  set_instance_outcome := set_instance_outcome E;
  receive_outcome := receive_outcome E;
  wait_response_outcome := r
|}.

(** The resolver fails. *)
Definition unresolved_env : Env :=
  with_resolver (Raise TenantResolutionError) sample_env.

(** The resolver finds no wallet. *)
Definition no_candidate_env : Env := with_resolver (Return []) sample_env.

(** The bytes cannot be unpacked. *)
Definition malformed_env : Env := with_receive (Raise MessageParseError) sample_env.

(** The dispatcher delivers an empty [bytes] payload in time. *)
Definition empty_payload_env : Env := with_wait (Return (Some (Bytes []))) sample_env.

(** The wait ends with nothing delivered. *)
Definition timeout_env : Env := with_wait (Return None) sample_env.

(** A transport on port 8020, whose port is taken when it starts. *)
Definition sample_transport : transport := init_transport "0.0.0.0" 8020 0.

Definition port_taken : StartEnv := {|
  ELASTIC_APM_ENABLED := None;
  elastic_apm_outcome := Return tt;
  runner_setup_outcome := Return tt;
  site_start_outcome := Raise OSError
|}.

(** The worlds the sample exchanges reach before the block. *)
Definition plain_before_block : world :=
  World [plain_base]
        [Session base_ref true true ("agent.example", "10.0.0.7") None false false]
        [EvCreateSession 0].

Definition routed_before_block : world :=
  World [routed_base; set_instance_field "wallet-1" routed_base]
        [Session 1 true true ("agent.example", "10.0.0.7") None false false]
        [EvCreateSession 0; EvInject; EvGetWalletByMsg (Str "{}");
         EvCopy 0 1; EvSetInstance "wallet-1" 1].

(** The fifth claim as it is worded, for every delivered payload. *)
Definition C5_as_stated : Prop :=
  ∀ E w sid body w1 inbound v,
    before_block E w = (Return (sid, body), w1) →
    receive_outcome E body (bound_context w w1) = Return inbound →
    direct_response_requested (receipt inbound) = true →
    wait_response_outcome E = Return (Some v) →
    outcome (inbound_message_handler E w) =
    Return (Response 200 (Some v)
              [("Content-Type",
                match v with
                | Bytes _ => "application/ssi-agent-wire"
                | Str _ => "application/json"
                end)]).

(** ** Further observations and samples *)

(** The place of a call in the order of the handler's text. *)
Definition call_rank (ev : event) : nat :=
  match ev with
  | EvCreateSession _ => 0
  | EvInject => 1
  | EvGetWalletByMsg _ => 2
  | EvCopy _ _ => 3
  | EvSetInstance _ _ => 4
  | EvEnter _ => 5
  | EvReceive _ _ => 6
  | EvWaitResponse => 7
  | EvClearResponse => 8
  | EvExit _ => 9
  end.

(** A request whose body is too large to be read. *)
Definition unreadable_env : Env := {|
  req_headers := [];
  req_host := "agent.example";
  req_remote := "10.0.0.7";
  req_text := Return "{}";
  req_read := Raise (OtherError "HTTPRequestEntityTooLarge");
  create_session_outcome := Return tt;
  inject_outcome := Return tt;
  get_wallet_by_msg := fun _ => Return ["wallet-1"];
  set_instance_outcome := fun _ _ => Return tt;
  receive_outcome := fun _ _ => Return (InboundMessage (MessageReceipt false));
  wait_response_outcome := Return None
|}.


(** The resolver cannot parse the message. *)
Definition parse_error_in_resolver_env : Env :=
  with_resolver (Raise MessageParseError) sample_env.

(** A start in which [runner.setup()] fails, with the variable set to
    [True], which is not [true]. *)
Definition setup_fails : StartEnv := {|
  ELASTIC_APM_ENABLED := Some "True";
  elastic_apm_outcome := Raise (OtherError "ConnectionError");
  runner_setup_outcome := Raise OSError;
  site_start_outcome := Return tt
|}.

(** A start cancelled while the site starts. *)
Definition site_cancelled : StartEnv := {|
  ELASTIC_APM_ENABLED := None;
  elastic_apm_outcome := Return tt;
  runner_setup_outcome := Return tt;
  site_start_outcome := Raise (OtherError "CancelledError")
|}.

(** * Proofs *)

(** ** The store: the newest object *)

Section StoreLemmas.
Context {A : Type} `{!Inhabited A}.

Lemma lookup_total_snoc (l : list A) (x : A) : (l ++ [x]) !!! length l = x.
Proof.
  apply list_lookup_total_correct.
  rewrite lookup_app_r by lia. by rewrite Nat.sub_diag.
Qed.

Lemma alter_snoc (f : A → A) (l : list A) (x : A) :
  alter f (length l) (l ++ [x]) = l ++ [f x].
Proof.
  induction l as [|y l IH]; [done|]. cbn. f_equal. apply IH.
Qed.

End StoreLemmas.

(** ** What each step of the handler does to the world *)

Lemma read_body_run E w : read_body E w = (request_body E, w).
Proof.
  unfold read_body, request_body, bind, await, ret.
  destruct (is_json _); [destruct (req_text E)|destruct (req_read E)]; reflexivity.
Qed.

Lemma create_session_run E a c ci h ss lg :
  create_session E a c ci (World h ss lg) =
  match create_session_outcome E with
  | Return _ =>
      (Return (length ss),
       World h (ss ++ [Session base_ref a c ci None false false])
             (lg ++ [EvCreateSession (length ss)]))
  | Raise e => (Raise e, World h ss lg)
  end.
Proof.
  unfold create_session, bind, await, alloc_session, emit, ret.
  destruct (create_session_outcome E); reflexivity.
Qed.

Lemma adapt_session_context_run E h ss s lg body :
  s_context s = base_ref →
  adapt_session_context E (length ss) body (World h (ss ++ [s]) lg) =
  if wallet_handler_declared (get_value (h !!! base_ref) "external_plugins") then
    match inject_outcome E with
    | Raise e => (Raise e, World h (ss ++ [s]) (lg ++ [EvInject]))
    | Return _ =>
      match get_wallet_by_msg E body with
      | Raise e =>
          (Raise e, World h (ss ++ [s]) (lg ++ [EvInject; EvGetWalletByMsg body]))
      | Return wallet_ids =>
          let c' := length h in
          let s' := set_s_context c' s in
          let lg' := lg ++ [EvInject; EvGetWalletByMsg body; EvCopy base_ref c'] in
          match wallet_ids with
          | [] => (Raise IndexError, World (h ++ [h !!! base_ref]) (ss ++ [s']) lg')
          | wid :: _ =>
              match set_instance_outcome E wid (h !!! base_ref) with
              | Raise e =>
                  (Raise e, World (h ++ [h !!! base_ref]) (ss ++ [s'])
                                  (lg' ++ [EvSetInstance wid c']))
              | Return _ =>
                  (Return tt,
                   World (h ++ [set_instance_field wid (h !!! base_ref)])
                         (ss ++ [s']) (lg' ++ [EvSetInstance wid c']))
              end
          end
      end
    end
  else (Return tt, World h (ss ++ [s]) lg).
Proof.
  intros Hs.
  unfold adapt_session_context, bind, get_session, get_context. cbn.
  rewrite lookup_total_snoc, Hs.
  destruct (wallet_handler_declared _); [|reflexivity].
  unfold inject_WalletHandler, wallet_handler_get_wallet_by_msg, bind, emit, await. cbn.
  destruct (inject_outcome E); [|reflexivity].
  destruct (get_wallet_by_msg E body) as [wallet_ids|]; [|by rewrite <- app_assoc].
  unfold context_copy, bind, get_context, alloc_context, emit, update_session, ret. cbn.
  rewrite lookup_total_snoc, Hs, alter_snoc.
  destruct wallet_ids as [|wid ?]; cbn.
  - by rewrite <- !app_assoc.
  - unfold wallet_handler_set_instance, bind, emit, get_context, await, update_context. cbn.
    rewrite !lookup_total_snoc. cbn. rewrite !lookup_total_snoc.
    destruct (set_instance_outcome E wid _); cbn.
    + rewrite alter_snoc. by rewrite <- !app_assoc.
    + by rewrite <- !app_assoc.
Qed.

(** The response of the block for what [wait_response] returned. *)
Lemma session_block_run E h ss s lg body :
  session_block E (length ss) body (World h (ss ++ [s]) lg) =
  let c := s_context s in
  match receive_outcome E body (h !!! c) with
  | Raise MessageParseError =>
      (Raise HTTPBadRequest, World h (ss ++ [s]) (lg ++ [EvReceive body c]))
  | Raise e => (Raise e, World h (ss ++ [s]) (lg ++ [EvReceive body c]))
  | Return inbound =>
      if direct_response_requested (receipt inbound) then
        match wait_response_outcome E with
        | Raise e =>
            (Raise e,
             World h (ss ++ [s]) (lg ++ [EvReceive body c; EvWaitResponse]))
        | Return r =>
            (Return
               match r with
               | Some v =>
                   if truthy_val v then
                     Some (Response 200 (Some v)
                             [("Content-Type",
                               if isinstance_bytes v
                               then "application/ssi-agent-wire"
                               else "application/json")])
                   else None
               | None => None
               end,
             World h
               (ss ++ [set_response_buffer None
                         (set_can_respond false (set_response_buffer r s))])
               (lg ++ [EvReceive body c; EvWaitResponse; EvClearResponse]))
        end
      else (Return None, World h (ss ++ [s]) (lg ++ [EvReceive body c]))
  end.
Proof.
  unfold session_block, try_except_MessageParseError, session_receive, bind,
    get_session, emit, get_context, await, raise. cbn.
  rewrite lookup_total_snoc.
  destruct (receive_outcome E body _) as [inbound|e]; [|by destruct e].
  destruct (direct_response_requested _); [|reflexivity].
  unfold session_wait_response, session_clear_response, bind, emit, await,
    update_session, ret. cbn.
  destruct (wait_response_outcome E) as [r|]; [|by rewrite <- app_assoc].
  destruct r as [v|]; [destruct (truthy_val v); [destruct (isinstance_bytes v)|]|];
    cbn; by rewrite !alter_snoc, <- !app_assoc.
Qed.

Lemma async_with_run {A} (block : M world A) h ss s lg :
  async_with (length ss) block (World h (ss ++ [s]) lg) =
  match block (World h (ss ++ [set_entered s]) (lg ++ [EvEnter (length ss)])) with
  | (r, w') =>
      (r, World (heap w') (alter set_closed (length ss) (sessions w'))
                (log w' ++ [EvExit (length ss)]))
  end.
Proof.
  unfold async_with, session_aenter, session_aexit, finally, bind, emit,
    update_session. cbn.
  rewrite alter_snoc.
  by destruct (block _) as [[?|?] ?].
Qed.

Lemma before_block_run E h ss lg :
  before_block E (World h ss lg) =
  match request_body E with
  | Raise e => (Raise e, World h ss lg)
  | Return body =>
      match create_session_outcome E with
      | Raise e => (Raise e, World h ss lg)
      | Return _ =>
          match adapt_session_context E (length ss) body
                  (World h
                     (ss ++ [Session base_ref true true (req_host E, req_remote E)
                                     None false false])
                     (lg ++ [EvCreateSession (length ss)])) with
          | (Return _, w1) => (Return (length ss, body), w1)
          | (Raise e, w1) => (Raise e, w1)
          end
      end
  end.
Proof.
  unfold before_block, bind. rewrite read_body_run.
  destruct (request_body E) as [body|]; [|reflexivity].
  rewrite create_session_run.
  destruct (create_session_outcome E); [|reflexivity].
  by destruct (adapt_session_context _ _ _ _) as [[?|?] ?].
Qed.

Lemma handler_split E w :
  inbound_message_handler E w =
  match before_block E w with
  | (Return (sid, body), w1) =>
      match async_with sid (session_block E sid body) w1 with
      | (Return (Some resp), w2) => (Return resp, w2)
      | (Return None, w2) => (Return (Response 200 None []), w2)
      | (Raise e, w2) => (Raise e, w2)
      end
  | (Raise e, w1) => (Raise e, w1)
  end.
Proof.
  unfold inbound_message_handler, before_block, bind, ret.
  destruct (read_body E w) as [[body|] w0]; [|reflexivity].
  destruct (create_session _ _ _ _ _) as [[sid|] w1]; [|reflexivity].
  destruct (adapt_session_context _ _ _ _) as [[?|] w2]; [|reflexivity].
  destruct (async_with _ _ _) as [[[resp|]|] w3]; reflexivity.
Qed.

(** When the block is reached, the session is the newest one of the store,
    it was neither entered nor closed, and it can still respond. *)
Lemma before_block_inv E w sid body w1 :
  before_block E w = (Return (sid, body), w1) →
  sid = new_sid w
  ∧ request_body E = Return body
  ∧ ∃ s, sessions w1 = sessions w ++ [s]
         ∧ entered s = false ∧ closed s = false
         ∧ can_respond s = true ∧ response_buffer s = None.
Proof.
  destruct w as [h ss lg]. rewrite before_block_run. unfold new_sid.
  cbn [sessions].
  destruct (request_body E) as [body'|]; [|discriminate].
  destruct (create_session_outcome E); [|discriminate].
  rewrite adapt_session_context_run by reflexivity.
  destruct (wallet_handler_declared _).
  - destruct (inject_outcome E); [|discriminate].
    destruct (get_wallet_by_msg E body') as [[|wid l]|]; [discriminate| |discriminate].
    cbn. destruct (set_instance_outcome E wid _); [|discriminate].
    intros [= <- <- <-]. cbn. eauto 10.
  - intros [= <- <- <-]. cbn. eauto 10.
Qed.

(** The whole handler once the block is reached. *)
Lemma handler_block_run E w sid body w1 :
  before_block E w = (Return (sid, body), w1) →
  ∃ s, sessions w1 = sessions w ++ [s]
    ∧ entered s = false ∧ closed s = false
    ∧ can_respond s = true ∧ response_buffer s = None
    ∧ inbound_message_handler E w =
      match session_block E sid body
              (World (heap w1) (sessions w ++ [set_entered s])
                     (log w1 ++ [EvEnter sid])) with
      | (r, w2) =>
          (match r with
           | Return (Some resp) => Return resp
           | Return None => Return (Response 200 None [])
           | Raise e => Raise e
           end,
           World (heap w2) (alter set_closed sid (sessions w2))
                 (log w2 ++ [EvExit sid]))
      end.
Proof.
  intros Hb. destruct (before_block_inv _ _ _ _ _ Hb) as (-> & _ & s & Hs & ? & ? & ? & ?).
  exists s. repeat split; try done.
  rewrite handler_split, Hb. destruct w1 as [h1 ss1 lg1].
  cbn [sessions heap log] in *. subst ss1.
  unfold new_sid. rewrite async_with_run.
  by destruct (session_block _ _ _ _) as [[[?|]|] ?].
Qed.

(** ** The content type test *)

Lemma media_type_split_first s : media_type s = split_first ";" s.
Proof.
  unfold media_type. induction s as [|a s IH]; [reflexivity|].
  cbn [index split_first]. unfold String.prefix at 1.
  destruct (ascii_dec ";" a) as [<-|Hne].
  - by destruct s.
  - replace (Ascii.eqb a ";") with false
      by (symmetry; apply Ascii.eqb_neq; congruence).
    destruct (index 0 ";" s) as [n|]; cbn [substring]; by rewrite <- IH.
Qed.

Lemma caseless_eqb_lower s t :
  caseless_eqb s t = String.eqb (lower s) (lower t).
Proof.
  revert t. induction s as [|a s IH]; intros [|b t]; try reflexivity.
  cbn. unfold same_letter. rewrite IH.
  by destruct (Ascii.eqb (lower_ascii a) (lower_ascii b)).
Qed.

Lemma is_json_caseless ctype :
  is_json ctype = caseless_eqb (media_type ctype) "application/json".
Proof.
  unfold is_json. by rewrite caseless_eqb_lower, media_type_split_first.
Qed.

(** The test on some headers: case and parameters do not matter, a space
    before the [;] does, and a missing header is not JSON. *)
Example is_json_plain : is_json "application/json" = true.
Proof. reflexivity. Qed.

Example is_json_upper_with_charset :
  is_json "Application/JSON; charset=utf-8" = true.
Proof. reflexivity. Qed.

Example is_json_space_before_semicolon :
  is_json "application/json ; charset=utf-8" = false.
Proof. reflexivity. Qed.

Example is_json_wire : is_json "application/ssi-agent-wire" = false.
Proof. reflexivity. Qed.

Example headers_get_any_case :
  headers_get [("Host", "agent.example"); ("CONTENT-TYPE", "text/plain")]
              "content-type" "" = "text/plain".
Proof. reflexivity. Qed.

Example headers_get_missing :
  is_json (headers_get [("Host", "agent.example")] "content-type" "") = false.
Proof. reflexivity. Qed.

(** ** Every path of the handler *)

(** Splits a run of the handler from the world [World h ss lg] into its
    paths, one per outcome of the collaborators, each with its final world
    written out. *)
Ltac prologue_paths E :=
  rewrite before_block_run;
  destruct (request_body E) as [?body|?e] eqn:?Hbody; cbn [fst snd];
  [destruct (create_session_outcome E) as [?u|?e] eqn:?Hcreate; cbn [fst snd];
   [rewrite adapt_session_context_run by reflexivity;
    destruct (wallet_handler_declared _) eqn:?Hdecl;
    [destruct (inject_outcome E) as [?u|?e] eqn:?Hinject;
     [destruct (get_wallet_by_msg E _) as [[|?wid ?rest]|?e] eqn:?Hresolve;
      cbn zeta;
      [|destruct (set_instance_outcome E _ _) as [?u|?e] eqn:?Hopen|]|]|];
    cbn [fst snd]|]|].

Ltac block_paths E :=
  try (rewrite async_with_run, session_block_run;
       cbn [s_context set_entered set_s_context];
       destruct (receive_outcome E _ _) as [?inbound|?e] eqn:?Hrecv;
       [destruct (direct_response_requested _) eqn:?Hdrr;
        [destruct (wait_response_outcome E) as [[?v|]|?e] eqn:?Hwait;
         [destruct (truthy_val _) eqn:?Htruthy| |]|]
       |match goal with e : exn |- _ => destruct e end]).

Ltac tidy_world :=
  cbn [fst snd heap sessions log];
  rewrite <- ?app_assoc; cbn [app].

Ltac all_paths E :=
  rewrite handler_split; prologue_paths E; block_paths E; tidy_world.

(** Membership of an event in a log that is written out. *)
Ltac in_log H :=
  repeat (apply elem_of_cons in H as [H|H]; [try discriminate H|]);
  try (by apply elem_of_nil in H).

Lemma new_events_app w h ss evs :
  new_events w (World h ss (log w ++ evs)) = evs.
Proof. unfold new_events. cbn. apply drop_app_length. Qed.

Lemma new_events_nil h ss lg : new_events (World h ss lg) (World h ss lg) = [].
Proof. unfold new_events. cbn. apply drop_all. Qed.

(** Unfolds a run of the handler that reached the block: [Hb] is the run of
    [before_block], the outcome of [receive] is rewritten from the context. *)
Ltac enter_block Hb :=
  let s := fresh "s" in
  let Hss := fresh "Hss" in
  let Hrun := fresh "Hrun" in
  destruct (handler_block_run _ _ _ _ _ Hb)
    as (s & Hss & _ & _ & _ & _ & Hrun);
  destruct (before_block_inv _ _ _ _ _ Hb) as (-> & _ & _);
  unfold bound_context, exchange_session, outcome, final in *;
  rewrite Hrun; unfold new_sid in *;
  rewrite session_block_run; cbn [s_context set_entered];
  rewrite Hss, lookup_total_snoc in *.

(** A lookup in a log that is written out: the positions one by one. *)
Ltac at_index i H :=
  do 12 (try (destruct i as [|i]; [cbn in H; try discriminate H|]));
  try (cbn in H; discriminate H).

(** ** Closing of the session *)

(** Once the block is reached the session is closed, however the block
    ends, and the exit is the last call of the exchange. *)
Lemma block_reached_session_closed E w sid body w1 :
  before_block E w = (Return (sid, body), w1) →
  let w' := final (inbound_message_handler E w) in
  closed (exchange_session w w') = true
  ∧ last (new_events w w') = Some (EvExit sid).
Proof.
  cbn zeta. destruct w as [h ss lg]. unfold final, exchange_session, new_sid.
  cbn [sessions].
  all_paths E; rewrite ?(new_events_app (World h ss lg)), ?new_events_nil;
    intros Hb; try discriminate Hb; injection Hb as <- <- <-;
    rewrite ?alter_snoc, lookup_total_snoc; done.
Qed.

(** ** [start] *)

Lemma start_run SE self :
  start SE self =
  let site0 := TCPSite (make_application self) (host self) (port self) false in
  let site1 := TCPSite (make_application self) (host self) (port self) true in
  match (if elastic_apm_wanted (ELASTIC_APM_ENABLED SE)
         then elastic_apm_outcome SE else Return tt) with
  | Raise e => (Raise e, self)
  | Return _ =>
      match runner_setup_outcome SE with
      | Raise e => (Raise e, self)
      | Return _ =>
          match site_start_outcome SE with
          | Return _ => (Return tt, set_site (Some site1) self)
          | Raise OSError =>
              (Raise (InboundTransportSetupError (setup_error_message self)),
               set_site (Some site0) self)
          | Raise e => (Raise e, set_site (Some site0) self)
          end
      end
  end.
Proof.
  unfold start, site_start, try_except_OSError, bind, get, put, await, ret, raise.
  destruct (elastic_apm_wanted _); [destruct (elastic_apm_outcome SE)|];
    try reflexivity;
    (destruct (runner_setup_outcome SE); [|reflexivity]);
    (destruct (site_start_outcome SE) as [|e]; [reflexivity|by destruct e]).
Qed.

Example setup_error_message_sample :
  setup_error_message sample_transport
  = ("Unable to start webserver with host '0.0.0.0' and port '8020'"
     ++ newline)%string.
Proof. reflexivity. Qed.

(** A transport that started listens, and does not after a [stop] whose
    [site.stop()] returns. *)
Lemma start_then_stop SE self :
  outcome (start SE self) = Return tt →
  listening (final (start SE self)) = true
  ∧ site (final (stop (Return tt) (final (start SE self)))) = None.
Proof.
  unfold outcome, final. rewrite start_run. cbn zeta.
  destruct (if elastic_apm_wanted _ then _ else _); [|discriminate].
  destruct (runner_setup_outcome SE); [|discriminate].
  destruct (site_start_outcome SE) as [|[]]; try discriminate.
  by intros _.
Qed.

Lemma request_body_raises E e :
  request_body E = Raise e → req_text E = Raise e ∨ req_read E = Raise e.
Proof.
  unfold request_body.
  destruct (is_json _); [destruct (req_text E)|destruct (req_read E)];
    intros [= ->]; auto.
Qed.

(** An exception that leaves the handler is one of the two it raises
    itself, or it was raised by a collaborator. *)
Lemma handler_raises_from E w e :
  outcome (inbound_message_handler E w) = Raise e →
  e = HTTPBadRequest ∨ e = IndexError ∨ ¬ never_raised E e.
Proof.
  unfold outcome, never_raised. destruct w as [h ss lg].
  all_paths E; intros [= <-]; auto; right; right;
    intros (? & ? & ? & ? & Hr & Ho & Hv & ?);
    try congruence;
    try (by eapply Hr); try (by eapply Ho); try (by eapply Hv).
  destruct (request_body_raises _ _ Hbody); congruence.
Qed.

(** ** The claims *)

(** C1 (fails on the code).  When tenant routing is on and the resolver
    raises [TenantResolutionError], the handler raises it to its caller with
    the session created but never entered and never closed: [receive] is not
    attempted, and neither is the release of the session, which
    [block_reached_session_closed] gives on every path through the block. *)
Theorem C1_failed_resolution_leaves_session_open E w body :
  outcome (read_body E w) = Return body →
  create_session_outcome E = Return tt →
  wallet_handler_declared (get_value (heap w !!! base_ref) "external_plugins")
    = true →
  inject_outcome E = Return tt →
  get_wallet_by_msg E body = Raise TenantResolutionError →
  let w' := final (inbound_message_handler E w) in
  outcome (inbound_message_handler E w) = Raise TenantResolutionError
  ∧ sessions w' =
      sessions w ++ [Session base_ref true true (req_host E, req_remote E)
                             None false false]
  ∧ closed (exchange_session w w') = false
  ∧ new_events w w' =
      [EvCreateSession (new_sid w); EvInject; EvGetWalletByMsg body].
Proof.
  rewrite read_body_run. unfold outcome, final, exchange_session, new_sid.
  cbn [fst]. destruct w as [h ss lg]. cbn [heap sessions].
  intros Hbody Hcreate Hon Hinject Hresolve. cbn zeta.
  rewrite handler_split, before_block_run, Hbody, Hcreate.
  rewrite adapt_session_context_run by reflexivity.
  rewrite Hon, Hinject, Hresolve. tidy_world.
  rewrite (new_events_app (World h ss lg)), lookup_total_snoc. done.
Qed.

Lemma C1_witness :
  outcome (inbound_message_handler unresolved_env (init_world routed_base))
  = Raise TenantResolutionError
  ∧ closed (exchange_session (init_world routed_base)
              (final (inbound_message_handler unresolved_env
                        (init_world routed_base)))) = false.
Proof.
  destruct (C1_failed_resolution_leaves_session_open
              unresolved_env (init_world routed_base) (Str "{}"))
    as (Hout & _ & Hclosed & _);
    [vm_compute; reflexivity | reflexivity | vm_compute; reflexivity
    | reflexivity | reflexivity |].
  exact (conj Hout Hclosed).
Defined.

(** C2.  When the parsed message asks for a direct response and
    [session.wait_response] returns, with a payload or without, the handler
    sets [can_respond] to false and clears the response: the session of the
    exchange, the one added to the store, ends with [can_respond] false and
    no pending response, and the clearing is called right after the wait,
    before the exit. *)
Theorem C2_no_more_responses E w sid body w1 inbound r :
  before_block E w = (Return (sid, body), w1) →
  receive_outcome E body (bound_context w w1) = Return inbound →
  direct_response_requested (receipt inbound) = true →
  wait_response_outcome E = Return r →
  let w' := final (inbound_message_handler E w) in
  ∃ s evs,
    sessions w' = sessions w ++ [s]
    ∧ sessions w' !! sid = Some s
    ∧ can_respond s = false
    ∧ response_buffer s = None
    ∧ new_events w w' = evs ++ [EvWaitResponse; EvClearResponse; EvExit sid].
Proof.
  unfold final, bound_context, exchange_session, new_sid.
  destruct w as [h ss lg]. cbn [sessions]. cbn zeta.
  intros Hb Hrecv' Hdrr' Hwait'.
  set (recv := receive_outcome E) in Hrecv'.
  set (asked := direct_response_requested) in Hdrr'. revert Hb.
  all_paths E; intros Hb; try discriminate Hb; injection Hb as <- <- <-;
    subst recv asked;
    cbn [heap sessions] in Hrecv'; rewrite ?lookup_total_snoc in Hrecv';
    cbn [s_context set_s_context] in Hrecv';
    rewrite ?lookup_total_snoc in *; try congruence;
    rewrite ?(new_events_app (World h ss lg)), ?alter_snoc;
    eexists _, _;
    (split; [reflexivity|]);
    (split; [by rewrite lookup_app_r, Nat.sub_diag by lia|]);
    (split; [reflexivity|]); (split; [reflexivity|]);
    first
      [ by instantiate (1 := [EvCreateSession _; EvEnter _; EvReceive _ _])
      | by instantiate
             (1 := [EvCreateSession _; EvInject; EvGetWalletByMsg _;
                    EvCopy _ _; EvSetInstance _ _; EvEnter _; EvReceive _ _]) ].
Qed.

Lemma C2_witness :
  let w := init_world routed_base in
  let w' := final (inbound_message_handler sample_env w) in
  ∃ s evs,
    sessions w' = sessions w ++ [s]
    ∧ sessions w' !! 0 = Some s
    ∧ can_respond s = false
    ∧ response_buffer s = None
    ∧ new_events w w' = evs ++ [EvWaitResponse; EvClearResponse; EvExit 0].
Proof.
  apply (C2_no_more_responses sample_env (init_world routed_base) 0 (Str "{}")
           routed_before_block (InboundMessage (MessageReceipt true))
           (Some (Str "ack")));
    [vm_compute; reflexivity | reflexivity | reflexivity | reflexivity].
Defined.

(** C3.  When [session.receive] raises [MessageParseError], the handler
    raises [HTTPBadRequest], which aiohttp answers with status 400; the
    session is closed all the same. *)
Theorem C3_parse_error_is_bad_request E w sid body w1 :
  before_block E w = (Return (sid, body), w1) →
  receive_outcome E body (bound_context w w1) = Raise MessageParseError →
  outcome (inbound_message_handler E w) = Raise HTTPBadRequest
  ∧ exn_status HTTPBadRequest = Some 400%Z
  ∧ closed (exchange_session w (final (inbound_message_handler E w))) = true.
Proof.
  intros Hb Hrecv. enter_block Hb. rewrite Hrecv. cbn.
  rewrite alter_snoc, lookup_total_snoc. by cbn.
Qed.

Lemma C3_witness :
  outcome (inbound_message_handler malformed_env (init_world plain_base))
  = Raise HTTPBadRequest.
Proof.
  destruct (C3_parse_error_is_bad_request malformed_env (init_world plain_base)
              0 (Str "{}") plain_before_block) as (Hout & _);
    [vm_compute; reflexivity | reflexivity |].
  exact Hout.
Defined.

(** C4.  The body is read as text exactly when the media type of the
    content-type header, the part before any [;] compared without case, is
    [application/json], and as bytes otherwise; every call of
    [session.receive] is on that body, and the call is made whenever the
    block is reached. *)
Theorem C4_body_by_content_type E w :
  let ctype := headers_get (req_headers E) "content-type" "" in
  read_body E w =
    (if caseless_eqb (media_type ctype) "application/json"
     then match req_text E with
          | Return s => Return (Str s)
          | Raise e => Raise e
          end
     else match req_read E with
          | Return b => Return (Bytes b)
          | Raise e => Raise e
          end, w)
  ∧ (∀ b c, EvReceive b c ∈ new_events w (final (inbound_message_handler E w)) →
            outcome (read_body E w) = Return b)
  ∧ (∀ sid b w1, before_block E w = (Return (sid, b), w1) →
       outcome (read_body E w) = Return b
       ∧ ∃ c, EvReceive b c ∈ new_events w (final (inbound_message_handler E w))).
Proof.
  cbn zeta. rewrite read_body_run. unfold outcome, final. cbn [fst].
  split; [|split].
  - unfold request_body. by rewrite is_json_caseless.
  - intros b c. destruct w as [h ss lg].
    all_paths E; rewrite ?(new_events_app (World h ss lg)), ?new_events_nil;
      intros Hin; in_log Hin; congruence.
  - intros sid b w1. destruct w as [h ss lg].
    all_paths E; rewrite ?(new_events_app (World h ss lg)), ?new_events_nil;
      intros Hb; try discriminate Hb; injection Hb as <- <- <-;
      (split; [done|]); eexists; rewrite !elem_of_cons; eauto 10.
Qed.

Lemma C4_witness :
  outcome (read_body sample_env (init_world plain_base)) = Return (Str "{}").
Proof.
  destruct (C4_body_by_content_type sample_env (init_world plain_base))
    as (_ & _ & Hrecv).
  destruct (Hrecv 0 (Str "{}") plain_before_block) as (Hbody & _);
    [vm_compute; reflexivity|].
  exact Hbody.
Defined.

(** C5 (amended).  When a direct response is asked for and a payload that is
    not empty is delivered before the wait ends, the handler returns status
    200 with that payload, a [bytes] one as the body tagged
    [application/ssi-agent-wire], any other as text tagged
    [application/json]. *)
Theorem C5_delivered_payload_response E w sid body w1 inbound v :
  before_block E w = (Return (sid, body), w1) →
  receive_outcome E body (bound_context w w1) = Return inbound →
  direct_response_requested (receipt inbound) = true →
  wait_response_outcome E = Return (Some v) →
  truthy_val v = true →
  outcome (inbound_message_handler E w) =
  Return (Response 200 (Some v)
            [("Content-Type",
              match v with
              | Bytes _ => "application/ssi-agent-wire"
              | Str _ => "application/json"
              end)]).
Proof.
  intros Hb Hrecv Hdrr Hwait Hv. enter_block Hb.
  rewrite Hrecv, Hdrr, Hwait, Hv. by destruct v.
Qed.

Lemma C5_witness :
  outcome (inbound_message_handler sample_env (init_world plain_base))
  = Return (Response 200 (Some (Str "ack")) [("Content-Type", "application/json")]).
Proof.
  apply (C5_delivered_payload_response sample_env (init_world plain_base) 0
           (Str "{}") plain_before_block (InboundMessage (MessageReceipt true))
           (Str "ack"));
    [vm_compute; reflexivity | reflexivity | reflexivity | reflexivity
    | reflexivity].
Defined.

(** C5, counterexample.  An empty [bytes] payload delivered in time is false
    in [if response:], so the handler answers with the empty 200 response,
    which carries neither the payload nor a content tag. *)
Lemma C5_empty_payload_counterexample :
  outcome (inbound_message_handler empty_payload_env (init_world plain_base))
  = Return (Response 200 None [])
  ∧ ¬ C5_as_stated.
Proof.
  split; [vm_compute; reflexivity|].
  intros H.
  specialize (H empty_payload_env (init_world plain_base) 0 (Str "{}")
                plain_before_block (InboundMessage (MessageReceipt true))
                (Bytes [])).
  vm_compute in H.
  specialize (H eq_refl eq_refl eq_refl eq_refl). discriminate H.
Qed.

(** C6.  When no payload comes back to the handler, because no direct
    response was asked for or because the wait ended with nothing
    delivered, the handler returns the empty 200 response. *)
Theorem C6_no_payload_gives_empty_success E w sid body w1 inbound :
  before_block E w = (Return (sid, body), w1) →
  receive_outcome E body (bound_context w w1) = Return inbound →
  direct_response_requested (receipt inbound) = false
  ∨ (direct_response_requested (receipt inbound) = true
     ∧ wait_response_outcome E = Return None) →
  outcome (inbound_message_handler E w) = Return (Response 200 None []).
Proof.
  intros Hb Hrecv Hno. enter_block Hb. rewrite Hrecv.
  destruct Hno as [-> | [-> ->]]; reflexivity.
Qed.

Lemma C6_witness :
  outcome (inbound_message_handler timeout_env (init_world plain_base))
  = Return (Response 200 None []).
Proof.
  apply (C6_no_payload_gives_empty_success timeout_env (init_world plain_base) 0
           (Str "{}") plain_before_block (InboundMessage (MessageReceipt true)));
    [vm_compute; reflexivity | reflexivity | right; split; reflexivity].
Defined.

(** C7.  When the [external_plugins] setting does not declare the wallet
    handler, the tenant step is skipped: [adapt_session_context] leaves the
    world as it is, the session stays bound to the base context by
    reference, no context is copied or changed, no call of the tenant
    resolution is made, and [receive] unpacks with the base context. *)
Theorem C7_routing_disabled_keeps_base_context E w :
  wallet_handler_declared (get_value (heap w !!! base_ref) "external_plugins")
    = false →
  let w' := final (inbound_message_handler E w) in
  (∀ sid body w1,
     create_session E true true (req_host E, req_remote E) w = (Return sid, w1) →
     adapt_session_context E sid body w1 = (Return tt, w1)
     ∧ s_context (sessions w1 !!! sid) = base_ref)
  ∧ (∀ sid body w1,
       before_block E w = (Return (sid, body), w1) →
       s_context (exchange_session w w1) = base_ref ∧ heap w1 = heap w)
  ∧ heap w' = heap w
  ∧ (∀ ev, ev ∈ new_events w w' → is_tenant_step ev = false)
  ∧ (∀ b c, EvReceive b c ∈ new_events w w' → c = base_ref).
Proof.
  intros Hoff. cbn zeta. destruct w as [h ss lg]. cbn [heap] in Hoff.
  unfold final, exchange_session, new_sid. cbn [sessions].
  split; [|split; [|split; [|split]]].
  - intros sid body w1 Hc. rewrite create_session_run in Hc.
    destruct (create_session_outcome E); [|discriminate].
    injection Hc as <- <-. cbn [sessions].
    rewrite adapt_session_context_run by reflexivity.
    by rewrite Hoff, lookup_total_snoc.
  - intros sid body w1. revert Hoff.
    prologue_paths E; intros Hoff Hb;
      try discriminate Hb; try discriminate Hoff.
    injection Hb as <- <- <-. cbn [sessions heap].
    by rewrite lookup_total_snoc.
  - revert Hoff. all_paths E; intros Hoff; try discriminate Hoff; reflexivity.
  - intros ev. revert Hoff.
    all_paths E; rewrite ?(new_events_app (World h ss lg)), ?new_events_nil;
      intros Hoff Hin; try discriminate Hoff; in_log Hin; by subst ev.
  - intros b c. revert Hoff.
    all_paths E; rewrite ?(new_events_app (World h ss lg)), ?new_events_nil;
      intros Hoff Hin; try discriminate Hoff; in_log Hin; congruence.
Qed.

Lemma C7_witness :
  heap (final (inbound_message_handler sample_env (init_world plain_base)))
  = [plain_base].
Proof.
  destruct (C7_routing_disabled_keeps_base_context sample_env
              (init_world plain_base))
    as (_ & _ & Hheap & _); [vm_compute; reflexivity|].
  exact Hheap.
Defined.

(** C8.  On every path the contexts that existed before the exchange,
    the base context among them, are left as they were.  A tenant instance
    is opened only on a context that did not exist before, the copy made at
    an earlier step, and only after [get_wallet_by_msg] returned a list
    whose first element is the wallet opened.  With routing on, a run that
    reaches the block has the session bound to that copy, which holds the
    base context's contents with the first candidate's instance. *)
Theorem C8_tenant_bound_by_substitution E w :
  let w' := final (inbound_message_handler E w) in
  heap w `prefix_of` heap w'
  ∧ (∀ i wid c,
       new_events w w' !! i = Some (EvSetInstance wid c) →
       heap w !! c = None
       ∧ (heap w ≠ [] → c ≠ base_ref)
       ∧ (∃ j, j < i ∧ new_events w w' !! j = Some (EvCopy base_ref c))
       ∧ ∃ j body rest,
           j < i
           ∧ new_events w w' !! j = Some (EvGetWalletByMsg body)
           ∧ get_wallet_by_msg E body = Return (wid :: rest))
  ∧ (∀ sid body w1,
       wallet_handler_declared
         (get_value (heap w !!! base_ref) "external_plugins") = true →
       before_block E w = (Return (sid, body), w1) →
       ∃ wid rest,
         get_wallet_by_msg E body = Return (wid :: rest)
         ∧ s_context (exchange_session w w1) = length (heap w)
         ∧ heap w1 = heap w ++ [set_instance_field wid (heap w !!! base_ref)]
         ∧ bound_context w w1 = set_instance_field wid (heap w !!! base_ref)
         ∧ heap w' = heap w1).
Proof.
  cbn zeta. destruct w as [h ss lg].
  unfold final, bound_context, exchange_session, new_sid. cbn [sessions heap].
  split; [|split].
  - all_paths E; first [reflexivity | by apply prefix_app_r].
  - intros i wid' c.
    all_paths E; rewrite ?(new_events_app (World h ss lg)), ?new_events_nil;
      intros Hi; at_index i Hi; injection Hi as <- <-;
      (split; [by apply lookup_ge_None_2|]);
      (split; [by destruct h|]);
      (split; [exists 3; split; [lia|reflexivity]|]);
      exists 2, body, rest; (split; [lia|]); by split.
  - intros sid body' w1 Hon. revert Hon.
    all_paths E; intros Hon Hb; try discriminate Hb; try discriminate Hon;
      injection Hb as <- <- <-; cbn [heap sessions];
      exists wid, rest; rewrite !lookup_total_snoc; cbn [s_context set_s_context];
      rewrite !lookup_total_snoc; done.
Qed.

Lemma C8_witness :
  ∃ wid rest,
    get_wallet_by_msg sample_env (Str "{}") = Return (wid :: rest)
    ∧ s_context (exchange_session (init_world routed_base) routed_before_block) = 1
    ∧ heap routed_before_block
      = [routed_base; set_instance_field wid routed_base].
Proof.
  destruct (C8_tenant_bound_by_substitution sample_env (init_world routed_base))
    as (_ & _ & Hbind).
  destruct (Hbind 0 (Str "{}") routed_before_block)
    as (wid & rest & Hres & Hctx & Hheap & _);
    [vm_compute; reflexivity | vm_compute; reflexivity |].
  exists wid, rest. exact (conj Hres (conj Hctx Hheap)).
Defined.

(** C9.  Provided no collaborator raises [InboundTransportSetupError] by
    itself, [start] raises it exactly when the steps before
    [self.site.start()] complete and that call raises [OSError]; the site
    does not listen then, and the handler never raises this error. *)
Theorem C9_setup_error_only_from_start SE self E w msg :
  start_never_raised SE (InboundTransportSetupError msg) →
  never_raised E (InboundTransportSetupError msg) →
  (outcome (start SE self) = Raise (InboundTransportSetupError msg)
   ↔ setup_completes SE
     ∧ site_start_outcome SE = Raise OSError
     ∧ msg = setup_error_message self)
  ∧ (outcome (start SE self) = Raise (InboundTransportSetupError msg) →
     listening (final (start SE self)) = false)
  ∧ outcome (inbound_message_handler E w)
    ≠ Raise (InboundTransportSetupError msg).
Proof.
  intros (Hapm & Hrun & Hsite) HE.
  unfold outcome, final, setup_completes. rewrite start_run. cbn zeta.
  split; [split|split].
  - destruct (elastic_apm_wanted _);
      [destruct (elastic_apm_outcome SE) as [[]|]|];
      (destruct (runner_setup_outcome SE) as [[]|]);
      (destruct (site_start_outcome SE) as [[]|[]]);
      cbn; intros [= ?]; subst; try congruence; done.
  - intros ((Ha & Hr) & Hs & ->). rewrite Hr, Hs.
    destruct (elastic_apm_wanted _); [by rewrite Ha|done].
  - destruct (elastic_apm_wanted _);
      [destruct (elastic_apm_outcome SE) as [[]|]|];
      (destruct (runner_setup_outcome SE) as [[]|]);
      (destruct (site_start_outcome SE) as [[]|[]]);
      cbn; intros [= ?]; subst; try congruence; done.
  - intros Hraise. apply handler_raises_from in Hraise as [?|[?|?]]; done.
Qed.

Lemma C9_witness :
  outcome (start port_taken sample_transport)
  = Raise (InboundTransportSetupError (setup_error_message sample_transport)).
Proof.
  destruct (C9_setup_error_only_from_start port_taken sample_transport
              sample_env (init_world plain_base)
              (setup_error_message sample_transport)) as ([_ Hraise] & _).
  - repeat split; discriminate.
  - repeat split; intros; discriminate.
  - apply Hraise.
    split; [split; [intros Hwanted; discriminate Hwanted | reflexivity]
           | split; reflexivity].
Defined.

(** C10.  With tenant routing on and an empty list from
    [get_wallet_by_msg], the handler raises [IndexError] at [wallet_ids[0]],
    after the context was copied and before the [async with] block: the
    session is neither entered nor closed. *)
Theorem C10_no_candidate_raises_index_error E w body :
  outcome (read_body E w) = Return body →
  create_session_outcome E = Return tt →
  wallet_handler_declared (get_value (heap w !!! base_ref) "external_plugins")
    = true →
  inject_outcome E = Return tt →
  get_wallet_by_msg E body = Return [] →
  let w' := final (inbound_message_handler E w) in
  outcome (inbound_message_handler E w) = Raise IndexError
  ∧ new_events w w' =
      [EvCreateSession (new_sid w); EvInject; EvGetWalletByMsg body;
       EvCopy base_ref (length (heap w))]
  ∧ (∀ sid, EvEnter sid ∉ new_events w w')
  ∧ entered (exchange_session w w') = false
  ∧ closed (exchange_session w w') = false.
Proof.
  rewrite read_body_run. unfold outcome, final, exchange_session, new_sid.
  cbn [fst]. destruct w as [h ss lg]. cbn [heap sessions].
  intros Hbody Hcreate Hon Hinject Hresolve. cbn zeta.
  rewrite handler_split, before_block_run, Hbody, Hcreate.
  rewrite adapt_session_context_run by reflexivity.
  rewrite Hon, Hinject, Hresolve. tidy_world.
  rewrite (new_events_app (World h ss lg)), lookup_total_snoc.
  repeat split; try done.
  intros sid Hin. in_log Hin.
Qed.

Lemma C10_witness :
  outcome (inbound_message_handler no_candidate_env (init_world routed_base))
  = Raise IndexError.
Proof.
  destruct (C10_no_candidate_raises_index_error
              no_candidate_env (init_world routed_base) (Str "{}"))
    as (Hout & _);
    [vm_compute; reflexivity | reflexivity | vm_compute; reflexivity
    | reflexivity | reflexivity |].
  exact Hout.
Defined.

(** * Further properties of the handler and the transport *)

(** X1.  Whatever the handler returns has status 200: it is the empty
    response, or it carries, unchanged, a payload that is not empty and that
    [wait_response] returned, tagged by the payload's type. *)
Theorem X1_returned_response_shape E w r :
  outcome (inbound_message_handler E w) = Return r →
  status r = 200%Z
  ∧ (r = Response 200 None []
     ∨ ∃ v, wait_response_outcome E = Return (Some v)
            ∧ truthy_val v = true
            ∧ r = Response 200 (Some v)
                    [("Content-Type",
                      if isinstance_bytes v
                      then "application/ssi-agent-wire"
                      else "application/json")]).
Proof.
  unfold outcome. destruct w as [h ss lg].
  all_paths E; intros [= <-]; (split; [reflexivity|]); eauto.
Qed.

Lemma X1_witness :
  let r := Response 200 (Some (Str "ack")) [("Content-Type", "application/json")] in
  status r = 200%Z
  ∧ (r = Response 200 None []
     ∨ ∃ v, wait_response_outcome sample_env = Return (Some v)
            ∧ truthy_val v = true
            ∧ r = Response 200 (Some v)
                    [("Content-Type",
                      if isinstance_bytes v
                      then "application/ssi-agent-wire"
                      else "application/json")]).
Proof.
  apply (X1_returned_response_shape sample_env (init_world plain_base)).
  vm_compute. reflexivity.
Defined.

(** X2.  The handler leaves the sessions and the log that were there before
    the exchange as they were: it adds at most one session, at most one
    context, and only appends to the log. *)
Theorem X2_other_exchanges_untouched E w :
  let w' := final (inbound_message_handler E w) in
  sessions w `prefix_of` sessions w'
  ∧ (length (sessions w') ≤ S (length (sessions w)))%nat
  ∧ log w `prefix_of` log w'
  ∧ (length (heap w') ≤ S (length (heap w)))%nat.
Proof.
  cbn zeta. unfold final. destruct w as [h ss lg].
  all_paths E; rewrite ?alter_snoc; cbn [heap sessions log];
    rewrite ?length_app; cbn [length];
    (split; [first [reflexivity | by apply prefix_app_r]|]);
    (split; [lia|]);
    (split; [first [reflexivity | by apply prefix_app_r]|]); lia.
Qed.

(** X3.  A failure before the session exists leaves nothing behind: when the
    body cannot be read, or [create_session] raises, the handler raises the
    same exception and the world is as it was, no call made. *)
Theorem X3_failure_before_session E w e :
  outcome (read_body E w) = Raise e
  ∨ (∃ body, outcome (read_body E w) = Return body
             ∧ create_session_outcome E = Raise e) →
  inbound_message_handler E w = (Raise e, w).
Proof.
  rewrite read_body_run. unfold outcome. cbn [fst]. destruct w as [h ss lg].
  rewrite handler_split, before_block_run.
  intros [Hbody | (body & Hbody & Hcreate)]; rewrite Hbody; [done|].
  by rewrite Hcreate.
Qed.

Lemma X3_witness :
  inbound_message_handler unreadable_env (init_world routed_base)
  = (Raise (OtherError "HTTPRequestEntityTooLarge"), init_world routed_base).
Proof.
  apply X3_failure_before_session. left. reflexivity.
Defined.

(** X4.  Once the session is created, it is closed at the end of the run
    exactly when it was entered, and that is exactly when the steps before
    the block all returned. *)
Theorem X4_closed_iff_block_reached E w body :
  outcome (read_body E w) = Return body →
  create_session_outcome E = Return tt →
  let w' := final (inbound_message_handler E w) in
  let s := exchange_session w w' in
  sessions w' = sessions w ++ [s]
  ∧ closed s = entered s
  ∧ (closed s = true
     ↔ ∃ w1, before_block E w = (Return (new_sid w, body), w1)).
Proof.
  rewrite read_body_run. unfold outcome, final, exchange_session, new_sid.
  cbn [fst]. destruct w as [h ss lg]. cbn [sessions]. cbn zeta.
  intros Hb Hc. revert Hb Hc.
  all_paths E; intros Hb Hc; try discriminate Hb; try discriminate Hc;
    injection Hb as <-;
    rewrite ?alter_snoc, lookup_total_snoc;
    (split; [reflexivity|]); (split; [reflexivity|]); cbn;
    (split; [intros Hclosed; try discriminate Hclosed; eauto
            |intros [w1 Hw1]; try discriminate Hw1; reflexivity]).
Qed.

Lemma X4_witness :
  let w := init_world routed_base in
  let s := exchange_session w (final (inbound_message_handler no_candidate_env w)) in
  closed s = entered s.
Proof.
  destruct (X4_closed_iff_block_reached no_candidate_env
              (init_world routed_base) (Str "{}")) as (_ & Heq & _);
    [vm_compute; reflexivity | reflexivity |].
  exact Heq.
Defined.

(** X5.  An exception raised in the tenant step, whatever its class, leaves
    the handler as it is, [MessageParseError] included: the handler stops in
    the world that step left, with the session neither entered nor closed. *)
Theorem X5_tenant_step_error_unconverted E w body sid w1 w2 e :
  outcome (read_body E w) = Return body →
  create_session E true true (req_host E, req_remote E) w = (Return sid, w1) →
  adapt_session_context E sid body w1 = (Raise e, w2) →
  inbound_message_handler E w = (Raise e, w2)
  ∧ entered (exchange_session w w2) = false
  ∧ closed (exchange_session w w2) = false.
Proof.
  rewrite read_body_run. unfold outcome, exchange_session, new_sid. cbn [fst].
  destruct w as [h ss lg]. cbn [sessions].
  intros Hbody Hc. rewrite create_session_run in Hc.
  rewrite handler_split, before_block_run, Hbody.
  destruct (create_session_outcome E); [|discriminate].
  injection Hc as <- <-.
  rewrite adapt_session_context_run by reflexivity.
  destruct (wallet_handler_declared _); [|discriminate].
  destruct (inject_outcome E); cbn zeta.
  - destruct (get_wallet_by_msg E body) as [[|wid rest]|].
    + intros [= <- <-]. cbn [sessions]. by rewrite lookup_total_snoc.
    + destruct (set_instance_outcome E wid _); [discriminate|].
      intros [= <- <-]. cbn [sessions]. by rewrite lookup_total_snoc.
    + intros [= <- <-]. cbn [sessions]. by rewrite lookup_total_snoc.
  - intros [= <- <-]. cbn [sessions]. by rewrite lookup_total_snoc.
Qed.

Lemma X5_witness :
  outcome (inbound_message_handler parse_error_in_resolver_env
             (init_world routed_base)) = Raise MessageParseError.
Proof.
  destruct (X5_tenant_step_error_unconverted parse_error_in_resolver_env
              (init_world routed_base) (Str "{}") 0
              (World [routed_base]
                 [Session base_ref true true ("agent.example", "10.0.0.7")
                          None false false]
                 [EvCreateSession 0])
              (World [routed_base]
                 [Session base_ref true true ("agent.example", "10.0.0.7")
                          None false false]
                 [EvCreateSession 0; EvInject; EvGetWalletByMsg (Str "{}")])
              MessageParseError) as (Hrun & _);
    [vm_compute; reflexivity | vm_compute; reflexivity
    | vm_compute; reflexivity |].
  exact (f_equal fst Hrun).
Defined.

(** X6.  Only [MessageParseError] becomes a bad request: any other exception
    of [receive] leaves the handler unchanged, after the session is closed
    and without a wait for a response. *)
Theorem X6_other_receive_error_propagates E w sid body w1 e :
  before_block E w = (Return (sid, body), w1) →
  receive_outcome E body (bound_context w w1) = Raise e →
  e ≠ MessageParseError →
  let w' := final (inbound_message_handler E w) in
  outcome (inbound_message_handler E w) = Raise e
  ∧ closed (exchange_session w w') = true
  ∧ EvWaitResponse ∉ new_events w w'.
Proof.
  unfold outcome, final, bound_context, exchange_session, new_sid.
  destruct w as [h ss lg]. cbn [sessions]. cbn zeta.
  intros Hb Hrecv' Hne. set (recv := receive_outcome E) in Hrecv'. revert Hb.
  all_paths E; intros Hb; try discriminate Hb; injection Hb as <- <- <-;
    subst recv;
    cbn [heap sessions] in Hrecv'; rewrite ?lookup_total_snoc in Hrecv';
    cbn [s_context set_s_context] in Hrecv';
    rewrite ?lookup_total_snoc in *; try congruence;
    rewrite ?(new_events_app (World h ss lg)), ?alter_snoc, ?lookup_total_snoc;
    (split; [congruence|]); (split; [reflexivity|]);
    intros Hin; in_log Hin.
Qed.

Lemma X6_witness :
  outcome (inbound_message_handler
             (with_receive (Raise (OtherError "WalletError")) sample_env)
             (init_world plain_base))
  = Raise (OtherError "WalletError").
Proof.
  destruct (X6_other_receive_error_propagates
              (with_receive (Raise (OtherError "WalletError")) sample_env)
              (init_world plain_base) 0 (Str "{}") plain_before_block
              (OtherError "WalletError")) as (Hout & _);
    [vm_compute; reflexivity | reflexivity | discriminate |].
  exact Hout.
Defined.

(** X7.  An exception of [wait_response] leaves the handler unchanged: the
    session is closed, and the response is not cleared on that path. *)
Theorem X7_wait_error_propagates E w sid body w1 inbound e :
  before_block E w = (Return (sid, body), w1) →
  receive_outcome E body (bound_context w w1) = Return inbound →
  direct_response_requested (receipt inbound) = true →
  wait_response_outcome E = Raise e →
  let w' := final (inbound_message_handler E w) in
  outcome (inbound_message_handler E w) = Raise e
  ∧ closed (exchange_session w w') = true
  ∧ (EvClearResponse ∉ new_events w w')
  ∧ last (new_events w w') = Some (EvExit sid).
Proof.
  unfold outcome, final, bound_context, exchange_session, new_sid.
  destruct w as [h ss lg]. cbn [sessions]. cbn zeta.
  intros Hb Hrecv' Hdrr' Hwait'.
  set (recv := receive_outcome E) in Hrecv'.
  set (asked := direct_response_requested) in Hdrr'. revert Hb.
  all_paths E; intros Hb; try discriminate Hb; injection Hb as <- <- <-;
    subst recv asked;
    cbn [heap sessions] in Hrecv'; rewrite ?lookup_total_snoc in Hrecv';
    cbn [s_context set_s_context] in Hrecv';
    rewrite ?lookup_total_snoc in *; try congruence;
    rewrite ?(new_events_app (World h ss lg)), ?alter_snoc, ?lookup_total_snoc;
    (split; [congruence|]); (split; [reflexivity|]);
    (split; [intros Hin; in_log Hin | reflexivity]).
Qed.

Lemma X7_witness :
  outcome (inbound_message_handler
             (with_wait (Raise (OtherError "CancelledError")) sample_env)
             (init_world plain_base))
  = Raise (OtherError "CancelledError").
Proof.
  destruct (X7_wait_error_propagates
              (with_wait (Raise (OtherError "CancelledError")) sample_env)
              (init_world plain_base) 0 (Str "{}") plain_before_block
              (InboundMessage (MessageReceipt true))
              (OtherError "CancelledError")) as (Hout & _);
    [vm_compute; reflexivity | reflexivity | reflexivity | reflexivity |].
  exact Hout.
Defined.

(** X8.  The handler waits for a response only after [receive] returned a
    message whose receipt asks for a direct response. *)
Theorem X8_wait_only_when_requested E w :
  EvWaitResponse ∈ new_events w (final (inbound_message_handler E w)) →
  ∃ sid body w1 inbound,
    before_block E w = (Return (sid, body), w1)
    ∧ receive_outcome E body (bound_context w w1) = Return inbound
    ∧ direct_response_requested (receipt inbound) = true.
Proof.
  unfold final, bound_context, exchange_session, new_sid.
  destruct w as [h ss lg]. cbn [sessions].
  all_paths E; rewrite ?(new_events_app (World h ss lg)), ?new_events_nil;
    intros Hin; in_log Hin;
    eexists _, _, _, inbound; (split; [reflexivity|]);
    cbn [heap sessions]; rewrite ?lookup_total_snoc;
    cbn [s_context set_s_context];
    rewrite ?lookup_total_snoc in *; by split.
Qed.

Lemma X8_witness :
  ∃ sid body w1 inbound,
    before_block sample_env (init_world plain_base) = (Return (sid, body), w1)
    ∧ receive_outcome sample_env body (bound_context (init_world plain_base) w1)
      = Return inbound
    ∧ direct_response_requested (receipt inbound) = true.
Proof.
  apply X8_wait_only_when_requested.
  replace (new_events (init_world plain_base)
             (final (inbound_message_handler sample_env (init_world plain_base))))
    with [EvCreateSession 0; EvEnter 0; EvReceive (Str "{}") 0;
          EvWaitResponse; EvClearResponse; EvExit 0]
    by (vm_compute; reflexivity).
  do 3 apply list_elem_of_further. apply list_elem_of_here.
Defined.

(** X9.  Only the first candidate counts: with the resolver returning
    [wid :: rest], the handler runs as it does with [wid] alone. *)
Theorem X9_first_candidate_only E w body wid rest :
  outcome (read_body E w) = Return body →
  get_wallet_by_msg E body = Return (wid :: rest) →
  inbound_message_handler E w
  = inbound_message_handler (with_resolver (Return [wid]) E) w.
Proof.
  rewrite read_body_run. unfold outcome. cbn [fst]. destruct w as [h ss lg].
  intros Hbody Hres.
  rewrite !handler_split, !before_block_run.
  change (request_body (with_resolver (Return [wid]) E)) with (request_body E).
  cbn [with_resolver create_session_outcome req_host req_remote].
  rewrite Hbody.
  destruct (create_session_outcome E); [|reflexivity].
  rewrite !adapt_session_context_run by reflexivity.
  cbn [with_resolver inject_outcome get_wallet_by_msg set_instance_outcome].
  rewrite Hres.
  destruct (wallet_handler_declared _);
    [destruct (inject_outcome E); [|reflexivity]; cbn zeta;
     destruct (set_instance_outcome E wid _); [|reflexivity]|];
    rewrite !async_with_run, !session_block_run; reflexivity.
Qed.

Lemma X9_witness :
  inbound_message_handler sample_env (init_world routed_base)
  = inbound_message_handler
      (with_resolver (Return ["wallet-1"]) sample_env) (init_world routed_base).
Proof.
  apply (X9_first_candidate_only sample_env (init_world routed_base)
           (Str "{}") "wallet-1" ["wallet-2"]); reflexivity.
Defined.

(** X10.  The calls of a run are made in the order of the handler's text,
    each at most once: session creation, the tenant step (inject, resolve,
    copy, open), entering the block, [receive], the wait, the clearing of
    the response, the exit. *)
Theorem X10_calls_in_order E w :
  StronglySorted lt
    (call_rank <$> new_events w (final (inbound_message_handler E w))).
Proof.
  unfold final. destruct w as [h ss lg].
  all_paths E; rewrite ?(new_events_app (World h ss lg)), ?new_events_nil;
    cbn; repeat (constructor; [|repeat (constructor; [lia|])]);
    repeat constructor.
Qed.

(** X11.  The handler raises of its own accord in two cases only: a bad
    request, when [receive] raised [MessageParseError] in the block, and an
    index error, when the resolver returned no candidate.  Any other
    exception that leaves it was raised by a collaborator. *)
Theorem X11_own_exceptions E w e :
  outcome (inbound_message_handler E w) = Raise e →
  never_raised E e →
  (e = HTTPBadRequest
   ∧ ∃ sid body w1,
       before_block E w = (Return (sid, body), w1)
       ∧ receive_outcome E body (bound_context w w1) = Raise MessageParseError)
  ∨ (e = IndexError
     ∧ ∃ body, outcome (read_body E w) = Return body
               ∧ get_wallet_by_msg E body = Return []).
Proof.
  rewrite read_body_run.
  unfold outcome, never_raised, bound_context, exchange_session, new_sid.
  cbn [fst]. destruct w as [h ss lg]. cbn [sessions].
  all_paths E; intros [= <-] (Ht & Hr & Hc & Hi & Hg & Ho & Hv & Hw);
    try congruence;
    try (exfalso; by eapply Hg); try (exfalso; by eapply Ho);
    try (exfalso; eapply Hv; rewrite lookup_total_snoc in *; eassumption);
    try (right; split; [reflexivity|]; eauto; fail);
    try (left; split; [reflexivity|];
         eexists _, _, _; split; [reflexivity|];
         cbn [heap sessions]; rewrite ?lookup_total_snoc;
         cbn [s_context set_s_context];
         rewrite ?lookup_total_snoc in *; eassumption).
  destruct (request_body_raises _ _ Hbody); congruence.
Qed.

Lemma X11_witness :
  (HTTPBadRequest = HTTPBadRequest
   ∧ ∃ sid body w1,
       before_block malformed_env (init_world plain_base)
       = (Return (sid, body), w1)
       ∧ receive_outcome malformed_env body
           (bound_context (init_world plain_base) w1)
         = Raise MessageParseError)
  ∨ (HTTPBadRequest = IndexError
     ∧ ∃ body, outcome (read_body malformed_env (init_world plain_base))
               = Return body
               ∧ get_wallet_by_msg malformed_env body = Return []).
Proof.
  apply (X11_own_exceptions malformed_env (init_world plain_base)).
  - vm_compute. reflexivity.
  - repeat split; intros; discriminate.
Defined.

(** ** The transport *)

Lemma elastic_apm_wanted_true v :
  elastic_apm_wanted v = true ↔ v = Some "true".
Proof.
  destruct v as [s|]; cbn; [|by split].
  rewrite andb_true_iff, String.eqb_eq. split.
  - by intros [_ ->].
  - by intros [= ->].
Qed.

(** X12.  On a transport without a site, [stop] after [start] gives the
    transport back as it was, however [start] ended, when [site.stop()]
    returns; when [start] left no site, [site.stop()] is not called and its
    outcome does not matter. *)
Theorem X12_start_then_stop_restores SE self :
  site self = None →
  final (stop (Return tt) (final (start SE self))) = self
  ∧ (∀ r, site (final (start SE self)) = None →
          stop r (final (start SE self)) = (Return tt, self)).
Proof.
  intros Hsite. unfold final. rewrite start_run. cbn zeta.
  destruct self as [hst prt mms st]. cbn in Hsite. subst st.
  destruct (if elastic_apm_wanted _ then _ else _); [|by split].
  destruct (runner_setup_outcome SE); [|by split].
  by destruct (site_start_outcome SE) as [|[]].
Qed.

Lemma X12_witness :
  final (stop (Return tt) (final (start port_taken sample_transport)))
  = sample_transport.
Proof.
  destruct (X12_start_then_stop_restores port_taken sample_transport)
    as [Hback _]; [reflexivity|].
  exact Hback.
Defined.

(** X13.  A transport that did not listen listens after [start] exactly
    when [start] returned, and then on the configured host and port with the
    application of [make_application]. *)
Theorem X13_listening_iff_started SE self :
  listening self = false →
  (listening (final (start SE self)) = true ↔ outcome (start SE self) = Return tt)
  ∧ (outcome (start SE self) = Return tt →
     site (final (start SE self))
     = Some (TCPSite (make_application self) (host self) (port self) true)).
Proof.
  intros Hoff. unfold outcome, final. rewrite start_run. cbn zeta.
  destruct (if elastic_apm_wanted _ then _ else _); cbn [fst snd];
    [|by rewrite Hoff].
  destruct (runner_setup_outcome SE); cbn [fst snd]; [|by rewrite Hoff].
  by destruct (site_start_outcome SE) as [|[]].
Qed.

Lemma X13_witness :
  listening (final (start port_taken sample_transport)) = true
  ↔ outcome (start port_taken sample_transport) = Return tt.
Proof.
  destruct (X13_listening_iff_started port_taken sample_transport) as [Hiff _];
    [reflexivity|].
  exact Hiff.
Defined.

(** X14.  An exception raised before the site exists, by [ElasticAPM(app)]
    or by [runner.setup()], leaves [start] as it is, an [OSError] included,
    and the transport is as it was. *)
Theorem X14_early_failure_unwrapped SE self e :
  (elastic_apm_wanted (ELASTIC_APM_ENABLED SE) = true
   ∧ elastic_apm_outcome SE = Raise e)
  ∨ ((elastic_apm_wanted (ELASTIC_APM_ENABLED SE) = false
      ∨ elastic_apm_outcome SE = Return tt)
     ∧ runner_setup_outcome SE = Raise e) →
  start SE self = (Raise e, self).
Proof.
  rewrite start_run. cbn zeta.
  intros [[-> ->] | [[-> | Hapm] ->]]; [reflexivity..|].
  rewrite Hapm. by destruct (elastic_apm_wanted _).
Qed.

Lemma X14_witness :
  start setup_fails sample_transport = (Raise OSError, sample_transport).
Proof.
  apply X14_early_failure_unwrapped. right.
  split; [left; reflexivity | reflexivity].
Defined.

(** X15.  Unless the variable [ELASTIC_APM_ENABLED] is exactly [true],
    [ElasticAPM] is not built: [start] does the same whatever it would do. *)
Theorem X15_apm_only_when_true SE SE' self :
  ELASTIC_APM_ENABLED SE ≠ Some "true" →
  ELASTIC_APM_ENABLED SE' ≠ Some "true" →
  runner_setup_outcome SE = runner_setup_outcome SE' →
  site_start_outcome SE = site_start_outcome SE' →
  start SE self = start SE' self.
Proof.
  intros Hoff Hoff' Hrun Hsite. rewrite !start_run, Hrun, Hsite.
  destruct (elastic_apm_wanted (ELASTIC_APM_ENABLED SE)) eqn:Hw;
    [by apply elastic_apm_wanted_true in Hw|].
  destruct (elastic_apm_wanted (ELASTIC_APM_ENABLED SE')) eqn:Hw';
    [by apply elastic_apm_wanted_true in Hw'|].
  reflexivity.
Qed.

Lemma X15_witness :
  start setup_fails sample_transport
  = start {| ELASTIC_APM_ENABLED := None;
             elastic_apm_outcome := Return tt;
             runner_setup_outcome := Raise OSError;
             site_start_outcome := Return tt |} sample_transport.
Proof.
  apply X15_apm_only_when_true; [discriminate | discriminate | reflexivity..].
Defined.

(** X16.  An exception of [self.site.start()] that is not an [OSError]
    leaves [start] as it is; the site is kept on the transport, not
    started. *)
Theorem X16_site_start_other_error SE self e :
  setup_completes SE →
  site_start_outcome SE = Raise e →
  e ≠ OSError →
  start SE self
  = (Raise e,
     set_site (Some (TCPSite (make_application self) (host self) (port self)
                             false)) self).
Proof.
  intros [Hapm Hrun] Hsite Hne. rewrite start_run, Hrun, Hsite. cbn zeta.
  destruct (elastic_apm_wanted _); [rewrite Hapm by reflexivity|];
    by destruct e.
Qed.

Lemma X16_witness :
  outcome (start site_cancelled sample_transport)
  = Raise (OtherError "CancelledError").
Proof.
  rewrite (X16_site_start_other_error site_cancelled sample_transport
             (OtherError "CancelledError")).
  - reflexivity.
  - split; [intros Hw; discriminate Hw | reflexivity].
  - reflexivity.
  - discriminate.
Defined.

(** X17.  [stop] on a transport without a site returns and changes
    nothing, [site.stop()] not being called.  With a site: when
    [site.stop()] raises, [stop] raises the same and [self.site] stays set;
    when it returns, [self.site] is [None], host and port are kept, and a
    further [stop] changes nothing whatever [site.stop()] would do. *)
Theorem X17_stop_clears_or_raises self r :
  (site self = None → stop r self = (Return tt, self))
  ∧ (∀ e, site self ≠ None → r = Raise e → stop r self = (Raise e, self))
  ∧ (site self ≠ None → r = Return tt →
     outcome (stop r self) = Return tt
     ∧ site (final (stop r self)) = None
     ∧ listening (final (stop r self)) = false
     ∧ host (final (stop r self)) = host self
     ∧ port (final (stop r self)) = port self
     ∧ ∀ r', stop r' (final (stop r self)) = (Return tt, final (stop r self))).
Proof.
  destruct self as [hst prt mms [s|]]; cbn.
  - split; [discriminate|]. split.
    + by intros e _ ->.
    + by intros _ ->.
  - split; [done|]. split; [by intros e Hsome|by intros Hsome].
Qed.

Lemma X17_witness :
  stop (Raise OSError) (final (start port_taken sample_transport))
  = (Raise OSError, final (start port_taken sample_transport)).
Proof.
  destruct (X17_stop_clears_or_raises
              (final (start port_taken sample_transport)) (Raise OSError))
    as (_ & Hraise & _).
  apply Hraise; [discriminate | reflexivity].
Defined.

(** X18.  The invitation probe always answers with status 200 and no headers
    of its own; it has a body exactly when the parameter [c_i] is present
    and not empty. *)
Theorem X18_invite_response query :
  status (invite_message_handler query) = 200%Z
  ∧ resp_headers (invite_message_handler query) = []
  ∧ (is_Some (payload (invite_message_handler query))
     ↔ ∃ v, query = Some v ∧ v ≠ "").
Proof.
  unfold invite_message_handler.
  destruct query as [v|]; cbn.
  - destruct (String.eqb_spec v "") as [->|Hne]; cbn.
    + repeat split; [by intros [? ?]|]. intros (v & [= <-] & Hv). done.
    + repeat split; eauto.
  - repeat split; [by intros [? ?]|]. by intros (v & ? & _).
Qed.

(** ** The content type *)

Lemma lower_ascii_semicolon c :
  Ascii.eqb (lower_ascii c) ";" = Ascii.eqb c ";".
Proof. by destruct c as [[] [] [] [] [] [] [] []]. Qed.

Lemma lower_split_first s :
  lower (split_first ";" s) = split_first ";" (lower s).
Proof.
  induction s as [|c s IH]; [reflexivity|]. cbn [lower split_first].
  rewrite lower_ascii_semicolon.
  destruct (Ascii.eqb c ";"); [reflexivity|]. cbn [lower]. by rewrite IH.
Qed.

Lemma split_first_params s p :
  split_first ";" (s ++ String ";" p)%string = split_first ";" s.
Proof.
  induction s as [|c s IH]; [reflexivity|]. simpl.
  by rewrite IH.
Qed.

(** X19.  The test for JSON does not see the case of the header's letters
    nor what follows a [;]: two headers equal up to case are treated alike,
    and a header with parameters like the header without them. *)
Theorem X19_is_json_case_and_parameters s t p :
  (lower s = lower t → is_json s = is_json t)
  ∧ is_json (s ++ String ";" p)%string = is_json s.
Proof.
  unfold is_json. split.
  - intros Heq. by rewrite !lower_split_first, Heq.
  - by rewrite split_first_params.
Qed.

Lemma X19_witness :
  is_json "APPLICATION/Json" = is_json "application/json".
Proof.
  destruct (X19_is_json_case_and_parameters
              "APPLICATION/Json" "application/json" "") as [Hcase _].
  apply Hcase. reflexivity.
Defined.

Lemma headers_get_absent hs key dflt :
  (∀ k v, (k, v) ∈ hs → lower k ≠ lower key) →
  headers_get hs key dflt = dflt.
Proof.
  induction hs as [|[k v] hs IH]; intros Hno; [reflexivity|]. cbn.
  destruct (String.eqb_spec (lower k) (lower key)) as [Heq|_].
  - exfalso. by eapply Hno; [left|].
  - apply IH. intros k' v' Hin. apply (Hno k' v'). by right.
Qed.

(** X20.  A request without a content-type header, under any spelling of
    the name, is read as bytes: [request.text()] is not awaited, so what it
    would give or raise does not matter. *)
Theorem X20_no_content_type_reads_bytes E w :
  (∀ k v, (k, v) ∈ req_headers E → lower k ≠ "content-type") →
  read_body E w
  = (match req_read E with
     | Return b => Return (Bytes b)
     | Raise e => Raise e
     end, w).
Proof.
  intros Hno. rewrite read_body_run. unfold request_body.
  by rewrite (headers_get_absent _ "content-type" "").
Qed.

Lemma X20_witness :
  read_body unreadable_env (init_world plain_base)
  = (Raise (OtherError "HTTPRequestEntityTooLarge"), init_world plain_base).
Proof.
  apply (X20_no_content_type_reads_bytes unreadable_env).
  intros k v Hin. by apply elem_of_nil in Hin.
Defined.
